(** * MoreFindings.py: a shallow embedding of the demo Flask application

    The application is a single module with one start-up routine
    ([init_db]) and five view functions.  Every view is glue around a
    library call (sqlite3, os.popen, base64/pickle, open), so the views are
    embedded as finite trees of library calls ([prog]) and run against an
    [environment] that answers those calls over an explicit [world]. *)

From stdpp Require Import base strings list gmap.
From Stdlib Require Import ZArith Ascii String.

Local Open Scope string_scope.
Local Open Scope Z_scope.

(** ** Python results *)

(** An instance of a class derived from [Exception], with what [str(e)]
    gives. *)
Record exception := Exc { exc_class : string; exc_str : string }.

(** What a [raise] carries: an [Exception] instance, or an instance of a
    class outside [Exception] (SystemExit, KeyboardInterrupt,
    GeneratorExit), which [except Exception] does not catch. *)
Inductive raised :=
| AnException (e : exception)
| ABaseException (cls msg : string).

Inductive py_result (A : Type) :=
| Returns (a : A)
| Raises (r : raised).
Arguments Returns {A} a.
Arguments Raises {A} r.

(** Result of a fixed library routine (sqlite3, base64, open): these raise
    [Exception] instances only. *)
Inductive lib_result (A : Type) :=
| Ok (a : A)
| Err (e : exception).
Arguments Ok {A} a.
Arguments Err {A} e.

Definition of_lib {A} (r : lib_result A) : py_result A :=
  match r with
  | Ok a => Returns a
  | Err e => Raises (AnException e)
  end.

(** Objects that [pickle.loads] may hand back: [None], a [str], or any
    other object, described by what [str()] does on it. *)
Inductive pyobj :=
| PyNone
| PyStr (s : string)
| PyObject (str_result : py_result string).

(** [str(obj)] *)
Definition py_str (o : pyobj) : py_result string :=
  match o with
  | PyNone => Returns "None"
  | PyStr s => Returns s
  | PyObject r => r
  end.

(** [f"{v}"] for a value that is a [str] or [None]. *)
Definition format_value (v : option string) : string :=
  match v with
  | Some s => s
  | None => "None"
  end.

(** ** SQL data *)

Inductive sql_value :=
| SqlNull
| SqlInt (n : Z)
| SqlText (s : string).

(** A result row: a tuple of one or more column values (a statement that
    yields rows has at least one result column). *)
Record sql_row := Row { first_column : sql_value; more_columns : list sql_value }.

Record column := Column { col_name : string; col_decl : list string }.

#[global] Instance column_eq_dec : EqDecision column.
Proof. solve_decision. Defined.

Record table := Table { columns : list column; rows : list sql_row }.

(** What a name of the schema stands for: a table, a view, or an index
    (on some table). *)
Inductive schema_object :=
| ATable (t : table)
| AView
| AnIndex.

(** A database file: its schema objects by (lower-case) name; tables,
    views and indexes share one name space. *)
Abbreviation database := (gmap string schema_object).

Record connection := Connection { conn_file : string }.

(** ** HTTP requests and responses *)

(** werkzeug's MultiDict: [get] returns the first value stored under the
    key. *)
Definition multidict := list (string * string).

Fixpoint multidict_get (d : multidict) (key : string) : option string :=
  match d with
  | [] => None
  | (k, v) :: rest => if String.eqb k key then Some v else multidict_get rest key
  end.

Record request := Request {
  args : multidict;    (* request.args *)
  form : multidict;    (* request.form *)
  data : string        (* request.data *)
}.

Inductive body :=
| Html (text : string)
| Json (obj : list (string * string)).

Record response := Response { status : Z; content : body }.

(** A view returning a [str]: status 200, HTML body. *)
Definition of_str (s : string) : response := Response 200 (Html s).

(** [jsonify(obj)]: status 200, JSON body. *)
Definition jsonify (obj : list (string * string)) : response :=
  Response 200 (Json obj).

(** A view returning [(rv, code)]. *)
Definition with_status (r : response) (code : Z) : response :=
  Response code (content r).

(** ** Library calls and programs *)

Inductive event : Type -> Type :=
| SqliteConnect (file : string) : event connection
| CursorExecute (conn : connection) (sql : string) : event (lib_result (list sql_row))
| ConnCommit (conn : connection) : event unit
| ConnClose (conn : connection) : event unit
| Print (line : string) : event unit
| PopenRead (cmd : string) : event (lib_result string)
| B64Decode (data : string) : event (lib_result string)
| PickleLoads (data : string) : event (py_result pyobj)
| OpenRead (path : string) : event (lib_result string).

Inductive prog (A : Type) : Type :=
| Ret (a : A)
| Vis {X : Type} (e : event X) (k : X -> prog A).
Arguments Ret {A} a.
Arguments Vis {A X} e k.

Fixpoint bind {A B} (m : prog A) (f : A -> prog B) : prog B :=
  match m with
  | Ret a => f a
  | Vis e k => Vis e (fun x => bind (k x) f)
  end.

(** Statements in sequence: a raise skips the rest. *)
Definition seq {A B} (m : prog (py_result A)) (f : A -> prog (py_result B))
  : prog (py_result B) :=
  bind m (fun r => match r with
                   | Returns a => f a
                   | Raises x => Ret (Raises x)
                   end).

Definition ret {A} (a : A) : prog (py_result A) := Ret (Returns a).

Definition call {X} (e : event X) : prog (py_result X) :=
  Vis e (fun x => Ret (Returns x)).

Definition call_lib {X} (e : event (lib_result X)) : prog (py_result X) :=
  Vis e (fun r => Ret (of_lib r)).

Definition call_py {X} (e : event (py_result X)) : prog (py_result X) :=
  Vis e (fun r => Ret r).

(** [try: body  except Exception as e: handler e] *)
Definition try_except_Exception {A} (body : prog (py_result A))
    (handler : exception -> prog (py_result A)) : prog (py_result A) :=
  bind body (fun r => match r with
                      | Returns a => Ret (Returns a)
                      | Raises (AnException e) => handler e
                      | Raises (ABaseException cls msg) => Ret (Raises (ABaseException cls msg))
                      end).

Declare Scope prog_scope.
Delimit Scope prog_scope with prog.
Notation "x <- m ;; k" := (seq m (fun x => k))
  (at level 20, m at level 99, k at level 200, only parsing) : prog_scope.
Local Open Scope prog_scope.

(** ** The module *)

(** Module-level names bound to constants. *)
Record module_globals := Globals { API_KEY : string; DB_FILE : string }.

Definition globals : module_globals :=
  {| API_KEY := "12345-SECRET-KEY"; DB_FILE := "users.db" |}.

Definition create_users_sql : string :=
  "CREATE TABLE IF NOT EXISTS users (id INTEGER PRIMARY KEY, username TEXT, password TEXT)".

Definition init_db (g : module_globals) : prog (py_result unit) :=
  conn <- call (SqliteConnect (DB_FILE g)) ;;
  (* c = conn.cursor() *)
  _ <- call_lib (CursorExecute conn create_users_sql) ;;
  _ <- call (ConnCommit conn) ;;
  call (ConnClose conn).

Definition home (g : module_globals) (req : request) : prog (py_result response) :=
  ret (of_str "Vulnerable Flask App – OWASP Demo").

Definition login_query (username password : option string) : string :=
  "SELECT * FROM users WHERE username='" +:+ format_value username
    +:+ "' AND password='" +:+ format_value password +:+ "'".

(** [c.fetchone()] on a fresh cursor: the first row of the result, or
    [None]. *)
Definition fetchone (result_rows : list sql_row) : option sql_row :=
  head result_rows.

(** Truth value of [fetchone()]'s result: [None] is false, and a row, a
    tuple that is not empty, is true. *)
Definition truthy (result : option sql_row) : bool :=
  match result with
  | Some _ => true
  | None => false
  end.

(** Lines 25-36 of [login]: from reading the form to closing the
    connection. *)
Definition login_lookup (g : module_globals) (req : request)
  : prog (py_result (option sql_row)) :=
  let username := multidict_get (form req) "username" in
  let password := multidict_get (form req) "password" in
  conn <- call (SqliteConnect (DB_FILE g)) ;;
  (* c = conn.cursor() *)
  let query := login_query username password in
  _ <- call (Print ("[DEBUG] Executing query: " +:+ query)) ;;
  cursor_rows <- call_lib (CursorExecute conn query) ;;
  let result := fetchone cursor_rows in
  _ <- call (ConnClose conn) ;;
  ret result.

Definition login_success : response := jsonify [("message", "Login successful")].
Definition login_failure : response :=
  with_status (jsonify [("message", "Invalid credentials")]) 401.

Definition login (g : module_globals) (req : request) : prog (py_result response) :=
  result <- login_lookup g req ;;
  if truthy result then ret login_success else ret login_failure.

Definition ping_command (host : string) : string := "ping -c 1 " +:+ host.

Definition ping (g : module_globals) (req : request) : prog (py_result response) :=
  let host := default "127.0.0.1" (multidict_get (args req) "host") in
  output <- call_lib (PopenRead (ping_command host)) ;;
  ret (of_str ("<pre>" +:+ output +:+ "</pre>")).

Definition deserialize (g : module_globals) (req : request) : prog (py_result response) :=
  let data := data req in
  try_except_Exception
    (raw <- call_lib (B64Decode data) ;;
     obj <- call_py (PickleLoads raw) ;;
     text <- Ret (py_str obj) ;;
     ret (jsonify [("result", text)]))
    (fun e => ret (with_status (jsonify [("error", exc_str e)]) 400)).

Definition read_file (g : module_globals) (req : request) : prog (py_result response) :=
  let filename := default "/etc/passwd" (multidict_get (args req) "file") in
  try_except_Exception
    (contents <- call_lib (OpenRead filename) ;;
     ret (of_str ("<pre>" +:+ contents +:+ "</pre>")))
    (fun e => ret (jsonify [("error", exc_str e)])).

(** The URL map built by the [@app.route] decorators. *)
Inductive route := RHome | RLogin | RPing | RDeserialize | RReadFile.

Definition view (g : module_globals) (r : route) : request -> prog (py_result response) :=
  match r with
  | RHome => home g
  | RLogin => login g
  | RPing => ping g
  | RDeserialize => deserialize g
  | RReadFile => read_file g
  end.

Definition url_map : list (string * string * route) :=
  [ ("GET", "/", RHome);
    ("POST", "/login", RLogin);
    ("GET", "/ping", RPing);
    ("POST", "/deserialize", RDeserialize);
    ("GET", "/readfile", RReadFile) ].

(** ** The world and the environment *)

(** What the process can reach on disk: SQLite database files and text
    files, by path. *)
Record world := World {
  sqlite_files : gmap string database;
  text_files : gmap string string
}.

(** What the name users stands for in the application's database file,
    and the users table when it is a table. *)
Definition users_object (g : module_globals) (w : world) : option schema_object :=
  db ← sqlite_files w !! DB_FILE g; db !! "users".

Definition users_table (g : module_globals) (w : world) : option table :=
  match users_object g w with
  | Some (ATable t) => Some t
  | _ => None
  end.

(** The libraries behind the calls.  The shell command and the unpickled
    payload run with the rights of the process, so they may change the
    world; unpickling also sees the module's names. *)
Record environment := Environment {
  env_execute : string -> database -> lib_result (list sql_row) * database;
  env_popen : string -> world -> lib_result string * world;
  env_b64decode : string -> lib_result string;
  env_pickle_loads : module_globals -> string -> world -> py_result pyobj * world;
  env_open_read : string -> world -> lib_result string
}.

(** [sqlite3.connect(file)] creates the database file when it is missing. *)
Definition open_database (file : string) (w : world) : world :=
  match sqlite_files w !! file with
  | Some _ => w
  | None => World (<[file := ∅]> (sqlite_files w)) (text_files w)
  end.

Definition current_database (file : string) (w : world) : database :=
  default ∅ (sqlite_files w !! file).

Definition store_database (file : string) (db : database) (w : world) : world :=
  World (<[file := db]> (sqlite_files w)) (text_files w).

(** One library call: its answer and the world after it.  Statements take
    effect when executed; [commit], [close] and [print] leave the files
    alone. *)
Definition perform (E : environment) (g : module_globals) {X} (e : event X) (w : world)
  : X * world :=
  match e in event X return X * world with
  | SqliteConnect file => (Connection file, open_database file w)
  | CursorExecute conn sql =>
      let '(r, db') := env_execute E sql (current_database (conn_file conn) w) in
      (r, store_database (conn_file conn) db' w)
  | ConnCommit _ => (tt, w)
  | ConnClose _ => (tt, w)
  | Print _ => (tt, w)
  | PopenRead cmd => env_popen E cmd w
  | B64Decode d => (env_b64decode E d, w)
  | PickleLoads d => env_pickle_loads E g d w
  | OpenRead path => (env_open_read E path w, w)
  end.

(** The record of a run: what was sent to the database, the shell and the
    debug stream. *)
Inductive effect :=
| Executed (file sql : string)
| Shell (cmd : string)
| Printed (line : string)
| Opened (path : string).

Definition effect_of {X} (e : event X) : list effect :=
  match e with
  | CursorExecute conn sql => [Executed (conn_file conn) sql]
  | PopenRead cmd => [Shell cmd]
  | Print line => [Printed line]
  | OpenRead path => [Opened path]
  | _ => []
  end.

Record run_result (A : Type) := RunResult {
  outcome : A;
  final : world;
  effects : list effect
}.
Arguments RunResult {A} _ _ _.
Arguments outcome {A} _.
Arguments final {A} _.
Arguments effects {A} _.

Fixpoint run (E : environment) (g : module_globals) {A} (p : prog A) (w : world)
  : run_result A :=
  match p with
  | Ret a => RunResult a w []
  | Vis e k =>
      let '(x, w') := perform E g e w in
      let r := run E g (k x) w' in
      RunResult (outcome r) (final r) (effect_of e ++ effects r)
  end.

(** Serving a request on a route. *)
Definition serve (E : environment) (g : module_globals) (r : route) (req : request)
    (w : world) : run_result (py_result response) :=
  run E g (view g r req) w.

(** ** The fragment of SQLite the statements of the module fall in

    [sqlite_fragment] gives the result of a statement for the part of
    SQLite's language that is modelled: the tokens of [tokenize.c] that the
    module's statements use, [CREATE TABLE IF NOT EXISTS], and
    [SELECT * FROM users WHERE] over equalities between the text columns
    and string literals joined by [AND] and [OR].  It answers [None] on
    every other statement. *)
Module Sqlite.

Definition LF : ascii := "010"%char.
Definition NUL : ascii := "000"%char.
Definition quote : ascii := "'"%char.

Definition code (c : ascii) : N := N_of_ascii c.

Definition is_space (c : ascii) : bool :=
  (code c =? 32)%N || (code c =? 9)%N || (code c =? 10)%N
  || (code c =? 12)%N || (code c =? 13)%N.

Definition is_upper (c : ascii) : bool := (65 <=? code c)%N && (code c <=? 90)%N.
Definition is_lower (c : ascii) : bool := (97 <=? code c)%N && (code c <=? 122)%N.
Definition is_digit (c : ascii) : bool := (48 <=? code c)%N && (code c <=? 57)%N.

Definition is_word_start (c : ascii) : bool :=
  is_upper c || is_lower c || Ascii.eqb c "_"%char.

Definition is_word_char (c : ascii) : bool :=
  is_word_start c || is_digit c || Ascii.eqb c "$"%char.

Definition lower_char (c : ascii) : ascii :=
  if is_upper c then ascii_of_N (code c + 32) else c.

Fixpoint lower (s : string) : string :=
  match s with
  | EmptyString => EmptyString
  | String c rest => String (lower_char c) (lower rest)
  end.

(** [s] with [c] added at its end. *)
Fixpoint snoc (s : string) (c : ascii) : string :=
  match s with
  | EmptyString => String c EmptyString
  | String a rest => String a (snoc rest c)
  end.

Inductive token :=
| TWord (w : string)
| TString (s : string)
| TEq
| TStar
| TLParen
| TRParen
| TComma.

Inductive lex_state :=
| LStart                     (* between tokens *)
| LDash                      (* one dash read *)
| LComment                   (* in a comment, up to the end of the line *)
| LWord (acc : string)       (* in a keyword or identifier *)
| LStr (acc : string)        (* in a string literal *)
| LStrQuote (acc : string).  (* in a string literal, a quote just read *)

Inductive lex_result :=
| Lexed (ts : list token)
| Unterminated               (* the input ends inside a string literal *)
| Unmodelled.                (* a character outside the fragment *)

Definition emit (ts : list token) (r : lex_result) : lex_result :=
  match r with
  | Lexed l => Lexed (ts ++ l)
  | _ => r
  end.

Definition from_start (c : ascii) : option (lex_state * list token) :=
  if is_space c then Some (LStart, [])
  else if Ascii.eqb c "-"%char then Some (LDash, [])
  else if Ascii.eqb c quote then Some (LStr EmptyString, [])
  else if Ascii.eqb c "="%char then Some (LStart, [TEq])
  else if Ascii.eqb c "*"%char then Some (LStart, [TStar])
  else if Ascii.eqb c "("%char then Some (LStart, [TLParen])
  else if Ascii.eqb c ")"%char then Some (LStart, [TRParen])
  else if Ascii.eqb c ","%char then Some (LStart, [TComma])
  else if is_word_start c then Some (LWord (String c EmptyString), [])
  else None.

Definition after (t : token) (c : ascii) : option (lex_state * list token) :=
  match from_start c with
  | Some (st, ts) => Some (st, t :: ts)
  | None => None
  end.

Definition step (st : lex_state) (c : ascii) : option (lex_state * list token) :=
  match st with
  | LStart => from_start c
  | LDash => if Ascii.eqb c "-"%char then Some (LComment, []) else None
  | LComment => if Ascii.eqb c LF then Some (LStart, []) else Some (LComment, [])
  | LWord acc =>
      if is_word_char c then Some (LWord (snoc acc c), []) else after (TWord acc) c
  | LStr acc =>
      if Ascii.eqb c quote then Some (LStrQuote acc, []) else Some (LStr (snoc acc c), [])
  | LStrQuote acc =>
      if Ascii.eqb c quote then Some (LStr (snoc acc quote), []) else after (TString acc) c
  end.

Definition finish (st : lex_state) : lex_result :=
  match st with
  | LStart | LComment => Lexed []
  | LWord acc => Lexed [TWord acc]
  | LStrQuote acc => Lexed [TString acc]
  | LStr _ => Unterminated
  | LDash => Unmodelled
  end.

Fixpoint lex (st : lex_state) (s : string) : lex_result :=
  match s with
  | EmptyString => finish st
  | String c rest =>
      match step st c with
      | Some (st', ts) => emit ts (lex st' rest)
      | None => Unmodelled
      end
  end.

(** The automaton run over a prefix of the input: the state reached and
    the tokens completed on the way. *)
Fixpoint steps (st : lex_state) (s : string) : option (lex_state * list token) :=
  match s with
  | EmptyString => Some (st, [])
  | String c rest =>
      match step st c with
      | Some (st', ts) =>
          match steps st' rest with
          | Some (st'', ts') => Some (st'', (ts ++ ts')%list)
          | None => None
          end
      | None => None
      end
  end.

Fixpoint has_char (c : ascii) (s : string) : bool :=
  match s with
  | EmptyString => false
  | String d rest => Ascii.eqb d c || has_char c rest
  end.

(** Keywords and names compare without regard to case. *)
Definition is_kw (kw : string) (t : token) : bool :=
  match t with
  | TWord w => String.eqb (lower w) kw
  | _ => false
  end.

(** *** CREATE TABLE IF NOT EXISTS *)

(** The words of one column definition: the name, then the declared type
    and constraints. *)
Fixpoint parse_columns (ts : list token) (cur : list string) : option (list (list string)) :=
  match ts with
  | [TRParen] => Some [cur]
  | TComma :: rest =>
      cols ← parse_columns rest []; Some (cur :: cols)
  | TWord w :: rest => parse_columns rest (cur ++ [w])
  | _ => None
  end.

Definition column_of (ws : list string) : option column :=
  match ws with
  | name :: decl => Some (Column (lower name) decl)
  | [] => None
  end.

Definition parse_create (ts : list token) : option (string * list column) :=
  match ts with
  | c :: after_create =>
      if is_kw "create" c then
        match after_create with
        | t :: i :: n :: e :: TWord name :: TLParen :: defs =>
            if is_kw "table" t && is_kw "if" i && is_kw "not" n && is_kw "exists" e
            then
              wss ← parse_columns defs [];
              cols ← mapM column_of wss;
              Some (lower name, cols)
            else None
        | _ => None
        end
      else None
  | [] => None
  end.

(** With IF NOT EXISTS a table or view of that name makes the statement a
    no-op; an index of that name is an error all the same. *)
Definition create_if_not_exists (name : string) (cols : list column)
    (db : database) : option (database) :=
  match db !! name with
  | Some (ATable _) | Some AView => Some db
  | Some AnIndex => None
  | None => Some (<[name := ATable (Table cols [])]> db)
  end.

(** *** SELECT * FROM users WHERE ... *)

Inductive operand :=
| OLit (s : string)
| OUsername
| OPassword.

Definition operand_of (t : token) : option operand :=
  match t with
  | TString s => Some (OLit s)
  | TWord w =>
      if String.eqb (lower w) "username" then Some OUsername
      else if String.eqb (lower w) "password" then Some OPassword
      else None
  | _ => None
  end.

(** A condition in the shape the grammar gives it: [AND] binds tighter
    than [OR], so a condition is a disjunction of conjunctions of
    equalities. *)
Fixpoint parse_where (ts : list token) : option (list (list (operand * operand))) :=
  match ts with
  | a :: TEq :: b :: rest =>
      oa ← operand_of a;
      ob ← operand_of b;
      match rest with
      | [] => Some [[(oa, ob)]]
      | t :: rest' =>
          if is_kw "and" t then
            match parse_where rest' with
            | Some (cj :: dj) => Some (((oa, ob) :: cj) :: dj)
            | _ => None
            end
          else if is_kw "or" t then
            dj ← parse_where rest'; Some ([(oa, ob)] :: dj)
          else None
      end
  | _ => None
  end.

Definition parse_select (ts : list token) : option (list (list (operand * operand))) :=
  match ts with
  | s :: TStar :: f :: u :: w :: cond =>
      if is_kw "select" s && is_kw "from" f && is_kw "users" u && is_kw "where" w
      then parse_where cond
      else None
  | _ => None
  end.

(** *** Rows of the users table *)

(** A user record: the columns of the schema with values of their
    declared types. *)
Record user_row := UserRow { id : Z; username : string; password : string }.

Definition users_columns : list column :=
  [ Column "id" ["INTEGER"; "PRIMARY"; "KEY"];
    Column "username" ["TEXT"];
    Column "password" ["TEXT"] ].

Definition encode_row (u : user_row) : sql_row :=
  Row (SqlInt (id u)) [SqlText (username u); SqlText (password u)].

Definition decode_row (r : sql_row) : option user_row :=
  match r with
  | Row (SqlInt i) [SqlText u; SqlText p] => Some (UserRow i u p)
  | _ => None
  end.

Definition users_of (rs : list user_row) : table :=
  Table users_columns (map encode_row rs).

Definition eval_operand (u : user_row) (o : operand) : string :=
  match o with
  | OLit s => s
  | OUsername => username u
  | OPassword => password u
  end.

(** Text compares byte by byte (the BINARY collation). *)
Definition eval_eq (u : user_row) (c : operand * operand) : bool :=
  String.eqb (eval_operand u (fst c)) (eval_operand u (snd c)).

Definition eval_where (cond : list (list (operand * operand))) (u : user_row) : bool :=
  existsb (forallb (eval_eq u)) cond.

(** The rows a SELECT yields, in the order of the table scan. *)
Definition select_rows (cond : list (list (operand * operand))) (t : table)
  : option (list sql_row) :=
  if decide (columns t = users_columns) then
    us ← mapM decode_row (rows t);
    Some (map encode_row (List.filter (eval_where cond) us))
  else None.

(** *** Statements *)

Inductive frag_result :=
| Done (result_rows : list sql_row) (db' : database)
| Fails.    (* sqlite3 raises an exception and the database is unchanged *)

Definition sqlite_fragment (sql : string) (db : database) : option frag_result :=
  if has_char NUL sql then None
  else
    match lex LStart sql with
    | Unmodelled => None
    | Unterminated => Some Fails
    | Lexed ts =>
        match parse_create ts with
        | Some (name, cols) =>
            match create_if_not_exists name cols db with
            | Some db' => Some (Done [] db')
            | None => Some Fails           (* there is already an index named ... *)
            end
        | None =>
            cond ← parse_select ts;
            match db !! "users" with
            | None | Some AnIndex => Some Fails      (* no such table: users *)
            | Some AView => None
            | Some (ATable t) => rs ← select_rows cond t; Some (Done rs db)
            end
        end
    end.

End Sqlite.

(** ** base64: padded input over the standard alphabet

    [b64decode_fragment] decodes input made of complete groups of four
    alphabet characters, the last group possibly padded, and answers [None]
    on anything else. *)
Module Base64.

Import Sqlite.

Definition sextet (c : ascii) : option N :=
  if is_upper c then Some (code c - 65)%N
  else if is_lower c then Some (code c - 97 + 26)%N
  else if is_digit c then Some (code c - 48 + 52)%N
  else if Ascii.eqb c "+"%char then Some 62%N
  else if Ascii.eqb c "/"%char then Some 63%N
  else None.

Definition pad : ascii := "="%char.

Definition byte (n : N) : ascii := ascii_of_N (n mod 256).

Fixpoint b64decode_fragment (s : string) : option string :=
  match s with
  | EmptyString => Some EmptyString
  | String a (String b (String c (String d rest))) =>
      x ← sextet a;
      y ← sextet b;
      match sextet c, sextet d with
      | Some z, Some t =>
          let n := (x * 262144 + y * 4096 + z * 64 + t)%N in
          out ← b64decode_fragment rest;
          Some (String (byte (n / 65536)) (String (byte (n / 256)) (String (byte n) out)))
      | Some z, None =>
          if Ascii.eqb d pad && String.eqb rest EmptyString then
            let n := (x * 1024 + y * 16 + z / 4)%N in
            Some (String (byte (n / 256)) (String (byte n) EmptyString))
          else None
      | None, _ =>
          if Ascii.eqb c pad && Ascii.eqb d pad && String.eqb rest EmptyString then
            Some (String (byte (x * 4 + y / 16)) EmptyString)
          else None
      end
  | _ => None
  end.

End Base64.

(** ** pickle: a few protocol-0 opcodes

    [unpickle_fragment] runs the unpickling machine on the opcodes GLOBAL
    [c], MARK [(], STRING [S], NONE [N], TUPLE [t], REDUCE [R] and STOP
    [.], over the names [__main__.API_KEY], [__main__.DB_FILE],
    [os.remove] and [sys.exit], and answers [None] on anything else. *)
Module Pickle.

Import Sqlite.

Inductive builtin := OsRemove | SysExit.

#[local] Set Warnings "-register-all".
Inductive item :=
| IMark
| INone
| IStr (s : string)
| ITuple (elems : list item)
| IBuiltin (f : builtin).

Inductive mode :=
| MOp                                  (* at an opcode *)
| MGlobalModule (acc : string)         (* GLOBAL, reading the module line *)
| MGlobalName (module acc : string)    (* GLOBAL, reading the name line *)
| MString (acc : string).              (* STRING, reading the quoted line *)

(** [find_class(module, name)]: the attribute of the imported module. *)
Definition find_class (g : module_globals) (module name : string) : option item :=
  if String.eqb module "__main__" then
    if String.eqb name "API_KEY" then Some (IStr (API_KEY g))
    else if String.eqb name "DB_FILE" then Some (IStr (DB_FILE g))
    else None
  else if String.eqb module "os" && String.eqb name "remove" then Some (IBuiltin OsRemove)
  else if String.eqb module "sys" && String.eqb name "exit" then Some (IBuiltin SysExit)
  else None.

(** The argument of STRING: a line in single quotes, without quotes or
    backslashes inside. *)
Fixpoint unquote_body (s : string) : option string :=
  match s with
  | EmptyString => None
  | String c EmptyString => if Ascii.eqb c quote then Some EmptyString else None
  | String c rest =>
      if Ascii.eqb c quote || Ascii.eqb c "\"%char then None
      else String c <$> unquote_body rest
  end.

Definition unquote (s : string) : option string :=
  match s with
  | String c rest => if Ascii.eqb c quote then unquote_body rest else None
  | EmptyString => None
  end.

(** Items above the topmost mark, bottom first, and the stack under it. *)
Fixpoint pop_mark (stack : list item) (acc : list item) : option (list item * list item) :=
  match stack with
  | [] => None
  | IMark :: rest => Some (acc, rest)
  | x :: rest => pop_mark rest (x :: acc)
  end.

Definition remove_file (path : string) (w : world) : lib_result world :=
  match sqlite_files w !! path, text_files w !! path with
  | Some _, _ => Ok (World (delete path (sqlite_files w)) (text_files w))
  | None, Some _ => Ok (World (sqlite_files w) (delete path (text_files w)))
  | None, None =>
      Err (Exc "FileNotFoundError"
             ("[Errno 2] No such file or directory: '" +:+ path +:+ "'"))
  end.

(** Calling a builtin on an argument tuple. *)
Definition apply_builtin (f : builtin) (args : list item) (w : world)
  : option (py_result item * world) :=
  match f, args with
  | SysExit, [] => Some (Raises (ABaseException "SystemExit" EmptyString), w)
  | OsRemove, [IStr path] =>
      match remove_file path w with
      | Ok w' => Some (Returns INone, w')
      | Err e => Some (Raises (AnException e), w)
      end
  | _, _ => None
  end.

Definition to_pyobj (x : item) : option pyobj :=
  match x with
  | INone => Some PyNone
  | IStr s => Some (PyStr s)
  | _ => None
  end.

Fixpoint machine (g : module_globals) (m : mode) (stack : list item) (w : world)
    (input : string) : option (py_result pyobj * world) :=
  match input with
  | EmptyString => None
  | String c rest =>
      match m with
      | MGlobalModule acc =>
          if Ascii.eqb c LF then machine g (MGlobalName acc EmptyString) stack w rest
          else machine g (MGlobalModule (snoc acc c)) stack w rest
      | MGlobalName module acc =>
          if Ascii.eqb c LF then
            x ← find_class g module acc; machine g MOp (x :: stack) w rest
          else machine g (MGlobalName module (snoc acc c)) stack w rest
      | MString acc =>
          if Ascii.eqb c LF then
            s ← unquote acc; machine g MOp (IStr s :: stack) w rest
          else machine g (MString (snoc acc c)) stack w rest
      | MOp =>
          if Ascii.eqb c "c"%char then machine g (MGlobalModule EmptyString) stack w rest
          else if Ascii.eqb c "("%char then machine g MOp (IMark :: stack) w rest
          else if Ascii.eqb c "N"%char then machine g MOp (INone :: stack) w rest
          else if Ascii.eqb c "S"%char then machine g (MString EmptyString) stack w rest
          else if Ascii.eqb c "t"%char then
            '(elems, under) ← pop_mark stack [];
            machine g MOp (ITuple elems :: under) w rest
          else if Ascii.eqb c "R"%char then
            match stack with
            | ITuple elems :: IBuiltin f :: under =>
                '(r, w') ← apply_builtin f elems w;
                match r with
                | Returns x => machine g MOp (x :: under) w' rest
                | Raises e => Some (Raises e, w')
                end
            | _ => None
            end
          else if Ascii.eqb c "."%char then
            match stack with
            | x :: _ => o ← to_pyobj x; Some (Returns o, w)
            | [] => None
            end
          else None
      end
  end.

Definition unpickle_fragment (g : module_globals) (input : string) (w : world)
  : option (py_result pyobj * world) :=
  match input with
  | EmptyString => Some (Raises (AnException (Exc "EOFError" "Ran out of input")), w)
  | _ => machine g MOp [] w input
  end.

End Pickle.

(** ** Environments that behave as the libraries do *)

Definition agrees_sqlite (E : environment) : Prop :=
  ∀ sql db,
    match Sqlite.sqlite_fragment sql db with
    | Some (Sqlite.Done result_rows db') => env_execute E sql db = (Ok result_rows, db')
    | Some Sqlite.Fails => ∃ e, env_execute E sql db = (Err e, db)
    | None => True
    end.

Definition agrees_base64 (E : environment) : Prop :=
  ∀ s out, Base64.b64decode_fragment s = Some out → env_b64decode E s = Ok out.

Definition agrees_pickle (E : environment) : Prop :=
  ∀ g s w r, Pickle.unpickle_fragment g s w = Some r → env_pickle_loads E g s w = r.

(** [os.popen(cmd)]: a command with a NUL character in it is refused
    before any process is started; what any other command prints depends
    on the shell and is not modelled. *)
Definition popen_fragment (cmd : string) : option exception :=
  if Sqlite.has_char Sqlite.NUL cmd
  then Some (Exc "ValueError" "embedded null byte")
  else None.

Definition agrees_popen (E : environment) : Prop :=
  ∀ cmd w e, popen_fragment cmd = Some e → env_popen E cmd w = (Err e, w).

(** A SELECT statement reads: whatever follows the keyword, executing the
    statement leaves the database as it was. *)
Definition select_reads_only (E : environment) : Prop :=
  ∀ rest db, snd (env_execute E ("SELECT" +:+ rest) db) = db.

(** The environment given by the fragments; outside them the library call
    is answered by an exception. *)
Definition outside (what : string) : exception :=
  Exc "NotModelled" what.

Definition fragment_env : environment := {|
  env_execute sql db :=
    match Sqlite.sqlite_fragment sql db with
    | Some (Sqlite.Done result_rows db') => (Ok result_rows, db')
    | Some Sqlite.Fails => (Err (Exc "sqlite3.OperationalError" "statement rejected"), db)
    | None => (Err (outside "sqlite3"), db)
    end;
  env_popen cmd w :=
    match popen_fragment cmd with
    | Some e => (Err e, w)
    | None => (Ok EmptyString, w)
    end;
  env_b64decode s :=
    match Base64.b64decode_fragment s with
    | Some out => Ok out
    | None => Err (outside "base64")
    end;
  env_pickle_loads g s w :=
    match Pickle.unpickle_fragment g s w with
    | Some r => r
    | None => (Raises (AnException (outside "pickle")), w)
    end;
  env_open_read path w :=
    match text_files w !! path with
    | Some contents => Ok contents
    | None =>
        Err (Exc "FileNotFoundError"
               ("[Errno 2] No such file or directory: '" +:+ path +:+ "'"))
    end
|}.

(** ** The credential lookup and the inputs used below *)

(** What [sqlite3] answers to the statement [login] executes, on the
    database file as [connect] leaves it. *)
Definition credential_lookup (E : environment) (g : module_globals) (req : request)
    (w : world) : lib_result (list sql_row) * database :=
  env_execute E
    (login_query (multidict_get (form req) "username") (multidict_get (form req) "password"))
    (current_database (DB_FILE g) (open_database (DB_FILE g) w)).

(** The SQL statements among the effects of a run. *)
Definition executed (l : list effect) : list string :=
  omap (λ e, match e with Executed _ sql => Some sql | _ => None end) l.

Definition shell_commands (l : list effect) : list string :=
  omap (λ e, match e with Shell cmd => Some cmd | _ => None end) l.

(** A field without a quote or NUL character. *)
Definition plain (s : string) : Prop :=
  Sqlite.has_char Sqlite.quote s = false ∧ Sqlite.has_char Sqlite.NUL s = false.

(** A request with the absent login fields filled with the text None. *)
Definition with_none (key : string) (d : multidict) : multidict :=
  match multidict_get d key with
  | Some _ => d
  | None => (d ++ [(key, "None")])%list
  end.

Definition fill_none (req : request) : request :=
  Request (args req) (with_none "password" (with_none "username" (form req))) (data req).

Definition login_request (u p : string) : request :=
  Request [] [("username", u); ("password", p)] EmptyString.

Definition body_request (b : string) : request := Request [] [] b.

Definition host_request (h : string) : request := Request [("host", h)] [] EmptyString.

(** A world whose database holds the users table with the given rows. *)
Definition world_with (rs : list Sqlite.user_row) : world :=
  World {[ "users.db" := {[ "users" := ATable (Sqlite.users_of rs) ]} ]} ∅.

Definition fresh_world : world := World ∅ ∅.

(** A database file in which another program left a users table of its
    own. *)
Definition foreign_users : table :=
  Table [Column "id" ["INTEGER"; "PRIMARY"; "KEY"]; Column "name" ["TEXT"]] [].

Definition foreign_world : world :=
  World {[ "users.db" := {[ "users" := ATable foreign_users ]} ]} ∅.

(** A database file that holds another table and nothing named users. *)
Definition notes_world : world :=
  World {[ "users.db" := {[ "notes" := ATable (Table [Column "author" ["TEXT"]] []) ]} ]} ∅.

(** A database file in which an index is named users. *)
Definition indexed_world : world :=
  World {[ "users.db" := {[ "notes" := ATable (Table [Column "author" ["TEXT"]] []);
                            "users" := AnIndex ]} ]} ∅.

(** Three protocol-0 pickles, a line feed after each line:
    GLOBAL sys exit, MARK, TUPLE, REDUCE, STOP;
    GLOBAL __main__ API_KEY, STOP;
    GLOBAL os remove, MARK, STRING 'users.db', TUPLE, REDUCE, STOP. *)
Definition line (s rest : string) : string := s +:+ String Sqlite.LF rest.

Definition pickle_exit : string := line "csys" (line "exit" "(tR.").
Definition pickle_api_key : string := line "c__main__" (line "API_KEY" ".").
Definition pickle_remove_db : string :=
  line "cos" (line "remove" (line "(S'users.db'" "tR.")).

(** The request bodies that carry them: their base64 text. *)
Definition payload_exit : string := "Y3N5cwpleGl0Cih0Ui4=".
Definition payload_api_key : string := "Y19fbWFpbl9fCkFQSV9LRVkKLg==".
Definition payload_remove_db : string := "Y29zCnJlbW92ZQooUyd1c2Vycy5kYicKdFIu".

(** The world [init_db] leaves when the name users is free or names a
    table or view: the name keeps what it had, or gets the empty table of
    the schema. *)
Definition initialised (g : module_globals) (w : world) : world :=
  let db := default ∅ (sqlite_files w !! DB_FILE g) in
  let db' := match db !! "users" with
             | Some _ => db
             | None => <["users" := ATable (Table Sqlite.users_columns [])]> db
             end in
  World (<[DB_FILE g := db']> (sqlite_files w)) (text_files w).

(** ** The process: start-up, then one request after another *)

(** Requests handled in turn, each from the world the one before left;
    what a view returns or raises goes to the client and the next request
    is served all the same. *)
Definition serve_all (E : environment) (g : module_globals)
    (reqs : list (route * request)) (w : world) : world :=
  fold_left (λ w' x, final (serve E g x.1 x.2 w')) reqs w.

(** The [__main__] block: [init_db()], and when it returns, [app.run]
    serving the requests that come in. *)
Definition main (E : environment) (g : module_globals)
    (reqs : list (route * request)) (w : world) : world :=
  let start := run E g (init_db g) w in
  match outcome start with
  | Returns _ => serve_all E g reqs (final start)
  | Raises _ => final start
  end.

(** The views that run nothing the client sent: no shell command, no
    pickle. *)
Definition runs_no_payload (r : route) : bool :=
  match r with
  | RPing | RDeserialize => false
  | RHome | RLogin | RReadFile => true
  end.

(** * Properties *)

(** ** What each view does with the answers of the libraries *)

Lemma serve_login E g req w :
  serve E g RLogin req w =
    let q := login_query (multidict_get (form req) "username")
                         (multidict_get (form req) "password") in
    RunResult
      (match fst (credential_lookup E g req w) with
       | Ok result_rows =>
           if truthy (fetchone result_rows) then Returns login_success
           else Returns login_failure
       | Err e => Raises (AnException e)
       end)
      (store_database (DB_FILE g) (snd (credential_lookup E g req w))
         (open_database (DB_FILE g) w))
      [Printed ("[DEBUG] Executing query: " +:+ q); Executed (DB_FILE g) q].
Proof.
  unfold serve, credential_lookup. cbn.
  destruct (env_execute E _ _) as [[result_rows | e] db']; cbn; [| reflexivity].
  destruct (truthy (fetchone result_rows)); reflexivity.
Qed.

Lemma serve_ping E g req w :
  serve E g RPing req w =
    let cmd := ping_command (default "127.0.0.1" (multidict_get (args req) "host")) in
    RunResult
      (match fst (env_popen E cmd w) with
       | Ok output => Returns (of_str ("<pre>" +:+ output +:+ "</pre>"))
       | Err e => Raises (AnException e)
       end)
      (snd (env_popen E cmd w))
      [Shell cmd].
Proof.
  unfold serve. cbn. destruct (env_popen E _ w) as [[output | e] w']; reflexivity.
Qed.

Lemma serve_deserialize E g req w :
  serve E g RDeserialize req w =
    match env_b64decode E (data req) with
    | Err e => RunResult (Returns (with_status (jsonify [("error", exc_str e)]) 400)) w []
    | Ok raw =>
        RunResult
          (match fst (env_pickle_loads E g raw w) with
           | Returns obj =>
               match py_str obj with
               | Returns text => Returns (jsonify [("result", text)])
               | Raises (AnException e) =>
                   Returns (with_status (jsonify [("error", exc_str e)]) 400)
               | Raises (ABaseException cls msg) => Raises (ABaseException cls msg)
               end
           | Raises (AnException e) =>
               Returns (with_status (jsonify [("error", exc_str e)]) 400)
           | Raises (ABaseException cls msg) => Raises (ABaseException cls msg)
           end)
          (snd (env_pickle_loads E g raw w))
          []
    end.
Proof.
  unfold serve. cbn. destruct (env_b64decode E (data req)) as [raw | e]; cbn; [| reflexivity].
  destruct (env_pickle_loads E g raw w) as [[obj | [e | cls msg]] w']; cbn; try reflexivity.
  destruct (py_str obj) as [text | [e | cls msg]]; reflexivity.
Qed.

Lemma serve_read_file E g req w :
  serve E g RReadFile req w =
    let filename := default "/etc/passwd" (multidict_get (args req) "file") in
    RunResult
      (match env_open_read E filename w with
       | Ok contents => Returns (of_str ("<pre>" +:+ contents +:+ "</pre>"))
       | Err e => Returns (jsonify [("error", exc_str e)])
       end)
      w
      [Opened filename].
Proof.
  unfold serve. cbn. destruct (env_open_read E _ w) as [contents | e]; reflexivity.
Qed.

Lemma serve_home E g req w :
  serve E g RHome req w =
    RunResult (Returns (of_str "Vulnerable Flask App – OWASP Demo")) w [].
Proof. reflexivity. Qed.

(** ** What the payloads do in any environment that unpickles as pickle does *)

Section Payloads.

Variable E : environment.
Variable g : module_globals.
Variable w : world.

Hypothesis base64 : agrees_base64 E.
Hypothesis pickle : agrees_pickle E.

Lemma payloads_decode :
  Base64.b64decode_fragment payload_exit = Some pickle_exit ∧
  Base64.b64decode_fragment payload_api_key = Some pickle_api_key ∧
  Base64.b64decode_fragment payload_remove_db = Some pickle_remove_db.
Proof. repeat split; vm_compute; reflexivity. Qed.

Lemma deserialize_payload_exit :
  outcome (serve E g RDeserialize (body_request payload_exit) w)
    = Raises (ABaseException "SystemExit" EmptyString).
Proof.
  rewrite serve_deserialize. cbn [data body_request].
  rewrite (base64 payload_exit pickle_exit eq_refl).
  by rewrite (pickle g pickle_exit w
                (Raises (ABaseException "SystemExit" EmptyString), w) eq_refl).
Qed.

Lemma deserialize_payload_api_key :
  outcome (serve E g RDeserialize (body_request payload_api_key) w)
    = Returns (Response 200 (Json [("result", API_KEY g)])).
Proof.
  rewrite serve_deserialize. cbn [data body_request].
  rewrite (base64 payload_api_key pickle_api_key eq_refl).
  by rewrite (pickle g pickle_api_key w (Returns (PyStr (API_KEY g)), w) eq_refl).
Qed.

Lemma deserialize_payload_remove_db db :
  sqlite_files w !! "users.db" = Some db →
  DB_FILE g = "users.db" →
  outcome (serve E g RDeserialize (body_request payload_remove_db) w)
    = Returns (Response 200 (Json [("result", "None")])) ∧
  users_table g (final (serve E g RDeserialize (body_request payload_remove_db) w)) = None.
Proof.
  intros Hdb Hfile. rewrite serve_deserialize. cbn [data body_request].
  rewrite (base64 payload_remove_db pickle_remove_db eq_refl).
  assert (Pickle.unpickle_fragment g pickle_remove_db w
          = Some (Returns PyNone,
                  World (delete "users.db" (sqlite_files w)) (text_files w))) as Hrun.
  { let s := eval vm_compute in pickle_remove_db in change pickle_remove_db with s.
    cbn. unfold Pickle.remove_file. rewrite Hdb. reflexivity. }
  rewrite (pickle g _ w _ Hrun). cbn [fst snd outcome final]. split; [done |].
  unfold users_table, users_object. cbn. rewrite Hfile, lookup_delete_eq. done.
Qed.

End Payloads.

Lemma fragment_env_agrees_base64 : agrees_base64 fragment_env.
Proof. intros s out Hs. cbn. by rewrite Hs. Qed.

Lemma fragment_env_agrees_pickle : agrees_pickle fragment_env.
Proof. intros g s w r Hr. cbn. by rewrite Hr. Qed.

(** ** The login view *)

(** C2 (amended): for every username/password pair posted to /login, the
    view returns status 200 with JSON message Login successful exactly when
    the credential lookup yields a row, returns status 401 with JSON message
    Invalid credentials exactly when the lookup completes without a row,
    and, when executing the statement raises, lets that exception
    propagate instead of returning a response. *)
Theorem login_response E g req w :
  let r := outcome (serve E g RLogin req w) in
  let found := fst (credential_lookup E g req w) in
  (r = Returns (Response 200 (Json [("message", "Login successful")]))
     ↔ ∃ row rest, found = Ok (row :: rest)) ∧
  (r = Returns (Response 401 (Json [("message", "Invalid credentials")]))
     ↔ found = Ok []) ∧
  (∀ x, r = Raises x ↔ ∃ e, x = AnException e ∧ found = Err e).
Proof.
  cbn zeta. rewrite serve_login. cbn [outcome].
  destruct (fst (credential_lookup E g req w)) as [[| row rest] | e]; cbn.
  - split; [| split; [| intros x]]; split; try done.
    + intros (row & rest & [=]).
    + intros (e & _ & [=]).
  - split; [| split; [| intros x]]; split; try done.
    + eauto.
    + intros (e & _ & [=]).
  - split; [| split; [| intros x]]; split; try done.
    + intros (row & rest & [=]).
    + intros [= <-]. eauto.
    + intros (e' & -> & [= ->]). done.
Qed.

(** C2, as stated, fails: with a lone quote as username the statement is
    rejected, so the lookup yields no row, and yet no 401 response is
    returned: the exception leaves the view. *)
Lemma login_quote_propagates :
  let w := world_with [Sqlite.UserRow 1 "alice" "pw"] in
  let req := login_request "'" "x" in
  (¬ ∃ row rest, fst (credential_lookup fragment_env globals req w) = Ok (row :: rest)) ∧
  outcome (serve fragment_env globals RLogin req w)
    ≠ Returns (Response 401 (Json [("message", "Invalid credentials")])) ∧
  ∃ e, outcome (serve fragment_env globals RLogin req w) = Raises (AnException e).
Proof.
  cbn zeta. split; [| split].
  - intros (row & rest & H). vm_compute in H. discriminate H.
  - intros H. vm_compute in H. discriminate H.
  - eexists. vm_compute. reflexivity.
Qed.

(** C3: for every username [u] and password [p], the one SQL statement
    that /login executes is the template with [u] and [p] put in as they
    are, and the lookup yields the first row of its result, or none. *)
Theorem login_executes_template E g req w u p :
  multidict_get (form req) "username" = Some u →
  multidict_get (form req) "password" = Some p →
  let sql := "SELECT * FROM users WHERE username='" +:+ u
               +:+ "' AND password='" +:+ p +:+ "'" in
  let db := current_database (DB_FILE g) (open_database (DB_FILE g) w) in
  executed (effects (serve E g RLogin req w)) = [sql] ∧
  executed (effects (run E g (login_lookup g req) w)) = [sql] ∧
  outcome (run E g (login_lookup g req) w) =
    match fst (env_execute E sql db) with
    | Ok [] => Returns None
    | Ok (row :: _) => Returns (Some row)
    | Err e => Raises (AnException e)
    end.
Proof.
  intros Hu Hp. cbn zeta. rewrite serve_login. unfold login_lookup.
  rewrite Hu, Hp. cbn.
  destruct (env_execute E _ _) as [[[| row rest] | e] db']; cbn; done.
Qed.

Lemma login_executes_template_witness :
  executed (effects (serve fragment_env globals RLogin (login_request "alice" "pw")
                       (world_with [Sqlite.UserRow 1 "alice" "pw"])))
    = ["SELECT * FROM users WHERE username='alice' AND password='pw'"].
Proof.
  exact (proj1 (login_executes_template fragment_env globals
                  (login_request "alice" "pw")
                  (world_with [Sqlite.UserRow 1 "alice" "pw"])
                  "alice" "pw" eq_refl eq_refl)).
Defined.

(** ** The other views *)

(** C8 (amended): without a host parameter /ping uses 127.0.0.1; for every
    host the one command handed to [os.popen] is the ping invocation with
    the host put in as it is; when [os.popen(...).read()] returns, the
    output captured is returned as it is, between pre tags, with status
    200, and when it raises the exception leaves the view and no response
    is returned. *)
Theorem ping_response E g req w :
  let host := match multidict_get (args req) "host" with
              | Some h => h
              | None => "127.0.0.1"
              end in
  let cmd := "ping -c 1 " +:+ host in
  shell_commands (effects (serve E g RPing req w)) = [cmd] ∧
  outcome (serve E g RPing req w)
    = match fst (env_popen E cmd w) with
      | Ok output => Returns (Response 200 (Html ("<pre>" +:+ output +:+ "</pre>")))
      | Err e => Raises (AnException e)
      end.
Proof.
  cbn zeta. rewrite serve_ping. destruct (multidict_get (args req) "host"); done.
Qed.

(** C8, as stated, fails: for the host made of one NUL character no
    command is run and no 200 response comes back; the ValueError of
    [os.popen] leaves the view. *)
Lemma ping_nul_host_raises :
  let r := outcome (serve fragment_env globals RPing
                      (host_request (String Sqlite.NUL EmptyString)) fresh_world) in
  r = Raises (AnException (Exc "ValueError" "embedded null byte")) ∧
  ∀ resp, r ≠ Returns resp.
Proof.
  cbn zeta. split.
  - vm_compute. reflexivity.
  - intros resp H. vm_compute in H. discriminate H.
Qed.



(** C5: for every file parameter (and for /etc/passwd when there is none),
    /readfile answers status 200 either way: the contents between pre tags
    when the file can be opened and read, and JSON error with the text of
    the exception when it cannot. *)
Theorem read_file_response E g req w :
  let filename := match multidict_get (args req) "file" with
                  | Some f => f
                  | None => "/etc/passwd"
                  end in
  outcome (serve E g RReadFile req w) =
    match env_open_read E filename w with
    | Ok contents => Returns (Response 200 (Html ("<pre>" +:+ contents +:+ "</pre>")))
    | Err e => Returns (Response 200 (Json [("error", exc_str e)]))
    end.
Proof.
  cbn zeta. rewrite serve_read_file. cbn.
  destruct (multidict_get (args req) "file"); cbn;
    destruct (env_open_read E _ w); reflexivity.
Qed.

(** ** The secret *)

(** C9 (amended): no view reads the secret constant: the calls a view makes
    are the same for any two values of it, so from the same world the
    responses are the same, as long as, on /deserialize, unpickling the
    payload of the request gives the same for the two values (the payload
    does not read the module's names). *)
Theorem api_key_unused E k1 k2 f r req w :
  match r, env_b64decode E (data req) with
  | RDeserialize, Ok raw =>
      env_pickle_loads E (Globals k1 f) raw w = env_pickle_loads E (Globals k2 f) raw w
  | _, _ => True
  end →
  view (Globals k1 f) r req = view (Globals k2 f) r req ∧
  serve E (Globals k1 f) r req w = serve E (Globals k2 f) r req w.
Proof.
  intros H. split; [destruct r; reflexivity |].
  destruct r.
  - reflexivity.
  - rewrite !serve_login. reflexivity.
  - rewrite !serve_ping. reflexivity.
  - rewrite !serve_deserialize. destruct (env_b64decode E (data req)); [| reflexivity].
    rewrite H. reflexivity.
  - rewrite !serve_read_file. reflexivity.
Qed.

Lemma api_key_unused_witness :
  serve fragment_env (Globals "12345-SECRET-KEY" "users.db") RDeserialize
        (body_request payload_remove_db) (world_with [Sqlite.UserRow 1 "alice" "pw"])
  = serve fragment_env (Globals "rotated" "users.db") RDeserialize
        (body_request payload_remove_db) (world_with [Sqlite.UserRow 1 "alice" "pw"]).
Proof.
  exact (proj2 (api_key_unused fragment_env "12345-SECRET-KEY" "rotated" "users.db"
                  RDeserialize (body_request payload_remove_db)
                  (world_with [Sqlite.UserRow 1 "alice" "pw"]) eq_refl)).
Defined.

(** C9, as stated, fails: the pickle that names [__main__.API_KEY] makes
    /deserialize answer with the value of the constant, so two values give
    two responses. *)
Lemma deserialize_discloses_api_key :
  outcome (serve fragment_env (Globals "12345-SECRET-KEY" "users.db") RDeserialize
             (body_request payload_api_key) fresh_world)
    = Returns (Response 200 (Json [("result", "12345-SECRET-KEY")])) ∧
  outcome (serve fragment_env (Globals "rotated" "users.db") RDeserialize
             (body_request payload_api_key) fresh_world)
    = Returns (Response 200 (Json [("result", "rotated")])) ∧
  outcome (serve fragment_env (Globals "12345-SECRET-KEY" "users.db") RDeserialize
             (body_request payload_api_key) fresh_world)
    ≠ outcome (serve fragment_env (Globals "rotated" "users.db") RDeserialize
                 (body_request payload_api_key) fresh_world).
Proof.
  split; [| split].
  - vm_compute. reflexivity.
  - vm_compute. reflexivity.
  - intros H. vm_compute in H. discriminate H.
Qed.

(** ** The tokens of the statements /login builds *)

Section Lexing.
Import Sqlite.

Lemma append_nil t : EmptyString +:+ t = t.
Proof. reflexivity. Qed.

Lemma append_cons c s t : String c s +:+ t = String c (s +:+ t).
Proof. reflexivity. Qed.

Lemma emit_nil r : emit [] r = r.
Proof. destruct r; reflexivity. Qed.

Lemma emit_emit ts ts' r : emit ts (emit ts' r) = emit (ts ++ ts') r.
Proof. destruct r; cbn; [by rewrite app_assoc | done | done]. Qed.

(** Lexing goes through a prefix and then on from the state reached. *)
Lemma lex_app st s1 s2 :
  lex st (s1 +:+ s2) =
    match steps st s1 with
    | Some (st', ts) => emit ts (lex st' s2)
    | None => Unmodelled
    end.
Proof.
  revert st. induction s1 as [| c s1 IH]; intros st;
    rewrite ?append_nil, ?append_cons; cbn.
  - by rewrite emit_nil.
  - destruct (step st c) as [[st' ts] |]; [| done].
    rewrite IH. destruct (steps st' s1) as [[st'' ts'] |]; [| done].
    by rewrite emit_emit.
Qed.

Lemma has_char_app c s1 s2 :
  has_char c (s1 +:+ s2) = has_char c s1 || has_char c s2.
Proof.
  induction s1 as [| d s1 IH]; rewrite ?append_nil, ?append_cons; cbn; [done |].
  by rewrite IH, orb_assoc.
Qed.


Lemma snoc_app acc c s : snoc acc c +:+ s = acc +:+ String c s.
Proof.
  induction acc as [| a acc IH]; cbn [snoc]; rewrite ?append_nil, ?append_cons;
    [done | by rewrite IH].
Qed.

Lemma append_empty_r s : s +:+ EmptyString = s.
Proof.
  induction s as [| a s IH]; rewrite ?append_nil, ?append_cons; [done | by rewrite IH].
Qed.

(** A literal without a quote inside ends at the next quote. *)
Lemma lex_string_body acc s rest :
  has_char quote s = false →
  lex (LStr acc) (s +:+ String quote rest) = lex (LStrQuote (acc +:+ s)) rest.
Proof.
  revert acc. induction s as [| c s IH]; intros acc;
    rewrite ?append_nil, ?append_cons; cbn.
  - intros _. rewrite append_empty_r. by rewrite emit_nil.
  - intros [Hc Hs]%orb_false_elim. rewrite Hc. cbn.
    rewrite emit_nil, IH by done. by rewrite snoc_app.
Qed.


(** The statement built from plain fields. *)
Lemma lex_login_plain u p :
  has_char quote u = false → has_char quote p = false →
  lex LStart (login_query (Some u) (Some p)) =
    Lexed [TWord "SELECT"; TStar; TWord "FROM"; TWord "users"; TWord "WHERE";
           TWord "username"; TEq; TString u;
           TWord "AND"; TWord "password"; TEq; TString p].
Proof.
  intros Hu Hp.
  change (login_query (Some u) (Some p))
    with ("SELECT * FROM users WHERE username='"
            +:+ (u +:+ String quote (" AND password='" +:+ (p +:+ String quote EmptyString)))).
  rewrite lex_app.
  replace (steps LStart "SELECT * FROM users WHERE username='")
    with (Some (LStr EmptyString,
                [TWord "SELECT"; TStar; TWord "FROM"; TWord "users"; TWord "WHERE";
                 TWord "username"; TEq]))
    by (vm_compute; reflexivity).
  rewrite lex_string_body by done. rewrite lex_app, append_nil.
  replace (steps (LStrQuote u) " AND password='")
    with (Some (LStr EmptyString, [TString u; TWord "AND"; TWord "password"; TEq]))
    by reflexivity.
  rewrite lex_string_body by done. reflexivity.
Qed.

Lemma has_nul_login_query u p :
  has_char NUL (format_value u) = false → has_char NUL (format_value p) = false →
  has_char NUL (login_query u p) = false.
Proof.
  intros Hu Hp. unfold login_query. rewrite !has_char_app, Hu, Hp. reflexivity.
Qed.

Lemma mapM_decode_encode rs : mapM decode_row (map encode_row rs) = Some rs.
Proof.
  induction rs as [| [i u p] rs IH]; cbn; [done |]. rewrite IH. reflexivity.
Qed.

Lemma select_rows_users cond rs :
  select_rows cond (users_of rs) = Some (map encode_row (List.filter (eval_where cond) rs)).
Proof.
  unfold select_rows. cbn [columns rows users_of].
  rewrite decide_True by done. rewrite mapM_decode_encode. reflexivity.
Qed.

Lemma truthy_fetchone_select f rs :
  truthy (fetchone (map encode_row (List.filter f rs))) = existsb f rs.
Proof.
  induction rs as [| r rs IH]; cbn; [done |]. destruct (f r); cbn; done.
Qed.

End Lexing.

(** A host with a NUL character in it: [os.popen] raises on the command,
    and so does the view, in every environment that refuses such a command
    as [os.popen] does. *)
Lemma ping_nul_host E g w req h :
  agrees_popen E →
  multidict_get (args req) "host" = Some h →
  Sqlite.has_char Sqlite.NUL h = true →
  outcome (serve E g RPing req w)
    = Raises (AnException (Exc "ValueError" "embedded null byte")).
Proof.
  intros Hpopen Hh Hnul.
  assert (env_popen E (ping_command h) w
          = (Err (Exc "ValueError" "embedded null byte"), w)) as Hq.
  { apply Hpopen. unfold popen_fragment, ping_command.
    by rewrite has_char_app, Hnul, orb_true_r. }
  rewrite serve_ping. cbn zeta. rewrite Hh.
  change (default "127.0.0.1" (Some h)) with h. by rewrite Hq.
Qed.

(** ** The statements of /login in the fragment *)

Section LoginStatements.
Import Sqlite.

Lemma fragment_env_agrees : agrees_sqlite fragment_env.
Proof.
  intros sql db. cbn.
  destruct (sqlite_fragment sql db) as [[result_rows db' |] |]; eauto.
Qed.

Lemma sqlite_fragment_select sql db ts cond rs :
  has_char NUL sql = false →
  lex LStart sql = Lexed ts →
  parse_create ts = None →
  parse_select ts = Some cond →
  db !! "users" = Some (ATable (users_of rs)) →
  sqlite_fragment sql db =
    Some (Done (map encode_row (List.filter (eval_where cond) rs)) db).
Proof.
  intros Hnul Hlex Hcreate Hselect Hdb. unfold sqlite_fragment.
  rewrite Hnul, Hlex, Hcreate, Hselect. cbn [mbind option_bind].
  rewrite Hdb, select_rows_users. reflexivity.
Qed.


Lemma fragment_login_plain db rs u p :
  db !! "users" = Some (ATable (users_of rs)) →
  plain u → plain p →
  sqlite_fragment (login_query (Some u) (Some p)) db =
    Some (Done (map encode_row
                  (List.filter
                     (eval_where [[(OUsername, OLit u); (OPassword, OLit p)]]) rs)) db).
Proof.
  intros Hdb [Hu Hu0] [Hp Hp0].
  eapply sqlite_fragment_select;
    [by apply has_nul_login_query | by apply lex_login_plain | done..].
Qed.

(** The database [login] queries, when the file holds a users table. *)
Lemma database_of_users g w t :
  users_table g w = Some t →
  ∃ db, open_database (DB_FILE g) w = w ∧
        current_database (DB_FILE g) w = db ∧ db !! "users" = Some (ATable t).
Proof.
  unfold users_table, users_object, open_database, current_database.
  destruct (sqlite_files w !! DB_FILE g) as [db |]; cbn; [| done].
  destruct (db !! "users") as [[t' | |] |] eqn:Ht; [| done..].
  intros [= ->]. eauto.
Qed.

Lemma multidict_get_app (d : multidict) k v key :
  multidict_get (d ++ [(k, v)])%list key =
    match multidict_get d key with
    | Some x => Some x
    | None => if String.eqb k key then Some v else None
    end.
Proof.
  induction d as [| [k' v'] d IH]; cbn; [done |].
  destruct (String.eqb k' key); done.
Qed.

Lemma format_value_with_none key d :
  format_value (multidict_get (with_none key d) key) = format_value (multidict_get d key).
Proof.
  unfold with_none. destruct (multidict_get d key) as [x |] eqn:Hx; [by rewrite Hx |].
  rewrite multidict_get_app, Hx, String.eqb_refl. reflexivity.
Qed.

Lemma multidict_get_with_none key d k :
  key ≠ k → multidict_get (with_none key d) k = multidict_get d k.
Proof.
  intros Hne%String.eqb_neq. unfold with_none.
  destruct (multidict_get d key); [done |].
  rewrite multidict_get_app, Hne. by destruct (multidict_get d k).
Qed.

Lemma format_value_fill_none req :
  format_value (multidict_get (form (fill_none req)) "username")
    = format_value (multidict_get (form req) "username") ∧
  format_value (multidict_get (form (fill_none req)) "password")
    = format_value (multidict_get (form req) "password").
Proof.
  unfold fill_none; cbn [form]. split.
  - rewrite multidict_get_with_none by done. apply format_value_with_none.
  - rewrite format_value_with_none. by rewrite multidict_get_with_none.
Qed.

Lemma login_fill_none g req : login g (fill_none req) = login g req.
Proof.
  destruct (format_value_fill_none req) as [Hu Hp].
  unfold login, login_lookup.
  assert (login_query (multidict_get (form (fill_none req)) "username")
                      (multidict_get (form (fill_none req)) "password")
          = login_query (multidict_get (form req) "username")
                        (multidict_get (form req) "password")) as ->; [| reflexivity].
  unfold login_query. by rewrite Hu, Hp.
Qed.

End LoginStatements.

(** ** /login against a database that holds the users table *)

Lemma existsb_pointwise {A} (f h : A → bool) (l : list A) :
  (∀ x, f x = h x) → existsb f l = existsb h l.
Proof. intros Hfh. induction l as [| x l IH]; cbn; [done | by rewrite Hfh, IH]. Qed.

Lemma run_login_lookup E g req w :
  outcome (run E g (login_lookup g req) w) =
    match fst (credential_lookup E g req w) with
    | Ok result_rows => Returns (fetchone result_rows)
    | Err e => Raises (AnException e)
    end.
Proof.
  unfold credential_lookup. cbn.
  destruct (env_execute E _ _) as [[result_rows | e] db']; reflexivity.
Qed.

Section UsersTable.

Import Sqlite.

Variable E : environment.
Variable g : module_globals.
Variable w : world.
Variable rs : list user_row.

Hypothesis sqlite : agrees_sqlite E.
Hypothesis stored : users_table g w = Some (users_of rs).


(** The lookup when both fields are plain text, absent fields counting as
    the text None: the rows with these credentials, in table order. *)
Lemma credential_lookup_plain req :
  let u := format_value (multidict_get (form req) "username") in
  let p := format_value (multidict_get (form req) "password") in
  plain u → plain p →
  fst (credential_lookup E g req w)
    = Ok (map encode_row
            (List.filter (λ r, String.eqb (username r) u && String.eqb (password r) p) rs)).
Proof.
  intros u p Hu Hp.
  destruct (database_of_users g w _ stored) as (db & Hopen & Hcur & Hdb).
  unfold credential_lookup. rewrite Hopen, Hcur.
  pose proof (sqlite (login_query (Some u) (Some p)) db) as Hq.
  rewrite (fragment_login_plain db rs) in Hq by done.
  change (login_query (multidict_get (form req) "username")
                      (multidict_get (form req) "password"))
    with (login_query (Some u) (Some p)).
  rewrite Hq. cbn [fst]. do 2 f_equal. apply filter_ext.
  intros r. unfold eval_where, eval_eq. cbn. by rewrite andb_true_r, orb_false_r.
Qed.

(** With plain credentials the lookup yields the first row, in table
    order, that carries them. *)
Lemma login_lookup_first_match req :
  let u := format_value (multidict_get (form req) "username") in
  let p := format_value (multidict_get (form req) "password") in
  plain u → plain p →
  outcome (run E g (login_lookup g req) w)
    = Returns (encode_row <$>
                 head (List.filter
                         (λ r, String.eqb (username r) u && String.eqb (password r) p) rs)).
Proof.
  intros u p Hu Hp. rewrite run_login_lookup, credential_lookup_plain by done.
  unfold fetchone. fold u p.
  by destruct (List.filter _ rs).
Qed.


(** C10: when the username or the password field is absent from the form,
    /login does not fail on it: the field appears as the text None in the
    statement, the view behaves as for the request that carries the string
    None in that field, and, the fields present being plain text, the
    request is answered 200 or 401 by the rows whose credentials are those
    strings. *)
Theorem login_missing_field req :
  let u := multidict_get (form req) "username" in
  let p := multidict_get (form req) "password" in
  u = None ∨ p = None →
  plain (format_value u) →
  plain (format_value p) →
  (u = None →
   executed (effects (serve E g RLogin req w))
     = ["SELECT * FROM users WHERE username='None' AND password='"
          +:+ format_value p +:+ "'"]) ∧
  (p = None →
   executed (effects (serve E g RLogin req w))
     = ["SELECT * FROM users WHERE username='" +:+ format_value u
          +:+ "' AND password='None'"]) ∧
  view g RLogin req = view g RLogin (fill_none req) ∧
  outcome (serve E g RLogin req w) =
    if existsb (λ r, String.eqb (username r) (format_value u)
                     && String.eqb (password r) (format_value p)) rs
    then Returns (Response 200 (Json [("message", "Login successful")]))
    else Returns (Response 401 (Json [("message", "Invalid credentials")])).
Proof.
  intros u p _ Hu Hp. split; [| split; [| split]].
  - intros Hnone. rewrite serve_login. fold u. rewrite Hnone. reflexivity.
  - intros Hnone. rewrite serve_login. fold p. rewrite Hnone. reflexivity.
  - symmetry. apply login_fill_none.
  - rewrite serve_login. cbn [outcome].
    rewrite credential_lookup_plain by done.
    by rewrite truthy_fetchone_select.
Qed.

End UsersTable.



(** A line feed in the password ends the comment, and what follows it is
    read as SQL again: the condition on the password is needed. *)
Lemma login_comment_line_feed :
  outcome (serve fragment_env globals RLogin
             (login_request "admin' --" (String Sqlite.LF "OR '1'='1"))
             (world_with [Sqlite.UserRow 1 "bob" "s3cret"]))
    = Returns (Response 200 (Json [("message", "Login successful")])).
Proof. vm_compute. reflexivity. Qed.

Lemma login_missing_field_witness :
  outcome (serve fragment_env globals RLogin (Request [] [("password", "None")] EmptyString)
             (world_with [Sqlite.UserRow 7 "None" "None"]))
    = Returns (Response 200 (Json [("message", "Login successful")])).
Proof.
  exact (proj2 (proj2 (proj2
    (login_missing_field fragment_env globals
       (world_with [Sqlite.UserRow 7 "None" "None"])
       [Sqlite.UserRow 7 "None" "None"]
       fragment_env_agrees eq_refl
       (Request [] [("password", "None")] EmptyString)
       (or_introl eq_refl)
       (conj eq_refl eq_refl) (conj eq_refl eq_refl))))).
Defined.

(** ** Start-up: the schema *)

Section Schema.
Import Sqlite.

(** The statement of [init_db], read by the fragment. *)
Lemma fragment_create_users db :
  sqlite_fragment create_users_sql db =
    match create_if_not_exists "users" users_columns db with
    | Some db' => Some (Done [] db')
    | None => Some Fails
    end.
Proof. reflexivity. Qed.

Lemma users_object_open g w :
  default ∅ (sqlite_files w !! DB_FILE g) !! "users" = users_object g w.
Proof.
  unfold users_object. by destruct (sqlite_files w !! DB_FILE g).
Qed.

Lemma store_open_database f db w :
  store_database f db (open_database f w)
    = World (<[f := db]> (sqlite_files w)) (text_files w).
Proof.
  unfold store_database, open_database.
  destruct (sqlite_files w !! f); cbn; [done | by rewrite insert_insert_eq].
Qed.

Lemma current_open_database f w :
  current_database f (open_database f w) = default ∅ (sqlite_files w !! f).
Proof.
  unfold current_database, open_database.
  destruct (sqlite_files w !! f) as [db |] eqn:Hf; cbn; [by rewrite Hf |].
  by rewrite lookup_insert_eq.
Qed.

Lemma run_init_db E g w :
  agrees_sqlite E →
  users_object g w ≠ Some AnIndex →
  run E g (init_db g) w =
    RunResult (Returns tt) (initialised g w) [Executed (DB_FILE g) create_users_sql].
Proof.
  intros Hag Hfree. cbn.
  pose proof (Hag create_users_sql
                (current_database (DB_FILE g) (open_database (DB_FILE g) w))) as Hq.
  rewrite fragment_create_users, current_open_database in Hq.
  rewrite current_open_database.
  unfold initialised, create_if_not_exists in *.
  rewrite users_object_open in *.
  destruct (users_object g w) as [[t | |] |]; [| | done |];
    rewrite Hq; cbn; by rewrite store_open_database.
Qed.

Lemma users_object_initialised g w :
  users_object g (initialised g w)
    = Some (default (ATable (Table users_columns [])) (users_object g w)).
Proof.
  unfold initialised. rewrite users_object_open.
  unfold users_object at 1. cbn. rewrite lookup_insert_eq. cbn.
  destruct (users_object g w) as [o |] eqn:Ho; cbn.
  - by rewrite users_object_open.
  - by rewrite lookup_insert_eq.
Qed.

Lemma initialised_twice g w : initialised g (initialised g w) = initialised g w.
Proof.
  pose proof (users_object_initialised g w) as Ho.
  unfold initialised at 1. rewrite users_object_open, Ho.
  unfold initialised. cbn. rewrite lookup_insert_eq. cbn. by rewrite insert_insert_eq.
Qed.

End Schema.

(** C6 (amended): the schema initialization is idempotent: from every
    database state in which no index is named users, a call raises no
    error, a second call raises none either and leaves the state of the
    first, and the name users then stands for one object: the table with
    columns id integer primary key, username text, password text and no
    rows when the name was free, and otherwise the table (or view) that
    existed, kept with the columns and rows it had. *)
Theorem init_db_idempotent E g w :
  agrees_sqlite E →
  users_object g w ≠ Some AnIndex →
  let once := run E g (init_db g) w in
  let twice := run E g (init_db g) (final once) in
  outcome once = Returns tt ∧
  outcome twice = Returns tt ∧
  final twice = final once ∧
  users_table g (final twice)
    = match users_object g w with
      | None => Some (Table Sqlite.users_columns [])
      | Some (ATable t) => Some t
      | Some _ => None
      end.
Proof.
  intros Hag Hfree. cbn zeta.
  assert (users_object g (initialised g w) ≠ Some AnIndex) as Hfree'.
  { rewrite users_object_initialised. destruct (users_object g w); cbn; congruence. }
  rewrite (run_init_db E g w) by done. cbn [outcome final].
  rewrite (run_init_db E g (initialised g w)) by done. cbn [outcome final].
  rewrite initialised_twice. unfold users_table. rewrite users_object_initialised.
  destruct (users_object g w) as [[t | |] |]; done.
Qed.

Lemma init_db_idempotent_witness :
  users_table globals
    (final (run fragment_env globals (init_db globals)
              (final (run fragment_env globals (init_db globals) fresh_world))))
  = Some (Table Sqlite.users_columns []).
Proof.
  refine (proj2 (proj2 (proj2
    (init_db_idempotent fragment_env globals fresh_world fragment_env_agrees _)))).
  vm_compute. discriminate.
Defined.

(** C6, as stated, fails: when the database file already holds a users
    table with other columns, two calls raise no error and leave that
    table, which does not have the columns of the schema. *)
Lemma init_db_keeps_foreign_table :
  let once := run fragment_env globals (init_db globals) foreign_world in
  let twice := run fragment_env globals (init_db globals) (final once) in
  outcome twice = Returns tt ∧
  users_table globals (final twice) = Some foreign_users ∧
  columns <$> users_table globals (final twice) ≠ Some Sqlite.users_columns.
Proof.
  cbn zeta. split; [| split].
  - vm_compute. reflexivity.
  - vm_compute. reflexivity.
  - intros H. vm_compute in H. discriminate H.
Qed.

(** When an index is named users the statement is an error in spite of IF
    NOT EXISTS, and [init_db] raises: the condition on indexes is
    needed. *)
Lemma init_db_index_named_users :
  ∃ e, outcome (run fragment_env globals (init_db globals) indexed_world)
       = Raises (AnException e).
Proof. eexists. vm_compute. reflexivity. Qed.

(** ** What the views leave of the users table *)

Section Frame.
Import Sqlite.

Lemma users_table_store_current g w :
  users_table g
    (store_database (DB_FILE g)
       (current_database (DB_FILE g) (open_database (DB_FILE g) w))
       (open_database (DB_FILE g) w))
  = users_table g w.
Proof.
  rewrite store_open_database, current_open_database.
  unfold users_table, users_object. cbn. rewrite lookup_insert_eq. cbn.
  by destruct (sqlite_files w !! DB_FILE g).
Qed.

Lemma login_query_select u p :
  login_query u p
    = "SELECT" +:+ (" * FROM users WHERE username='" +:+ format_value u
                      +:+ "' AND password='" +:+ format_value p +:+ "'").
Proof. reflexivity. Qed.

(** A word, once begun, is the first token of what follows. *)
Lemma lex_word_first acc s ts :
  lex (LWord acc) s = Lexed ts → ∃ w ts', ts = TWord (acc +:+ w) :: ts'.
Proof.
  revert acc ts. induction s as [| c s IH]; intros acc ts; cbn.
  - intros [= <-]. exists EmptyString, []. by rewrite append_empty_r.
  - destruct (is_word_char c).
    + rewrite emit_nil. intros (w & ts' & ->)%IH.
      exists (String c w), ts'. by rewrite snoc_app.
    + unfold after. destruct (from_start c) as [[st ts0] |]; [| done].
      destruct (lex st s) as [l | |]; cbn; [| done | done].
      intros [= <-]. exists EmptyString. eexists. by rewrite append_empty_r.
Qed.

Lemma parse_create_select w ts : parse_create (TWord ("SELECT" +:+ w) :: ts) = None.
Proof. reflexivity. Qed.

(** In the fragment a statement that starts with SELECT changes
    nothing. *)
Lemma fragment_env_select_reads_only : select_reads_only fragment_env.
Proof.
  intros rest db. cbn. unfold sqlite_fragment.
  destruct (has_char NUL ("SELECT" +:+ rest)); [done |].
  rewrite lex_app.
  replace (steps LStart "SELECT") with (Some (LWord "SELECT", @nil token)) by reflexivity.
  rewrite emit_nil.
  destruct (lex (LWord "SELECT") rest) as [ts | |] eqn:Hlex; [| done | done].
  apply lex_word_first in Hlex as (w & ts' & ->).
  rewrite parse_create_select.
  destruct (parse_select _) as [cond |]; cbn; [| done].
  destruct (db !! "users") as [[t | |] |]; [| done..].
  destruct (select_rows cond t); done.
Qed.

End Frame.

(** C7 (amended): no view inserts, updates or deletes user records itself:
    /, /login (whose statement is a SELECT) and /readfile leave the users
    table as it was for every input; after /ping the world is the one the
    shell command leaves, and after /deserialize the one the unpickled
    payload leaves, so the table can change there only by what the
    attacker's command or payload does. *)
Theorem views_leave_users_table E g req w :
  select_reads_only E →
  users_table g (final (serve E g RHome req w)) = users_table g w ∧
  users_table g (final (serve E g RLogin req w)) = users_table g w ∧
  users_table g (final (serve E g RReadFile req w)) = users_table g w ∧
  final (serve E g RPing req w)
    = snd (env_popen E
             (ping_command (default "127.0.0.1" (multidict_get (args req) "host"))) w) ∧
  final (serve E g RDeserialize req w)
    = match env_b64decode E (data req) with
      | Ok raw => snd (env_pickle_loads E g raw w)
      | Err _ => w
      end.
Proof.
  intros Hsel. split; [reflexivity |]. split; [| split; [| split]].
  - rewrite serve_login. cbn [final]. unfold credential_lookup.
    rewrite login_query_select, Hsel. apply users_table_store_current.
  - rewrite serve_read_file. reflexivity.
  - rewrite serve_ping. reflexivity.
  - rewrite serve_deserialize. destruct (env_b64decode E (data req)); reflexivity.
Qed.

Lemma views_leave_users_table_witness :
  users_table globals
    (final (serve fragment_env globals RLogin (login_request "x' OR '1'='1" "y")
              (world_with [Sqlite.UserRow 1 "alice" "pw"])))
  = users_table globals (world_with [Sqlite.UserRow 1 "alice" "pw"]).
Proof.
  exact (proj1 (proj2
    (views_leave_users_table fragment_env globals
       (login_request "x' OR '1'='1" "y")
       (world_with [Sqlite.UserRow 1 "alice" "pw"])
       fragment_env_select_reads_only))).
Defined.

(** C7, as stated, fails: the pickle that calls [os.remove('users.db')]
    is answered 200 by /deserialize, and the users table and its rows are
    gone. *)
Lemma deserialize_removes_users :
  let w := world_with [Sqlite.UserRow 1 "alice" "pw"] in
  let r := serve fragment_env globals RDeserialize (body_request payload_remove_db) w in
  users_table globals w = Some (Sqlite.users_of [Sqlite.UserRow 1 "alice" "pw"]) ∧
  outcome r = Returns (Response 200 (Json [("result", "None")])) ∧
  users_table globals (final r) = None ∧
  users_table globals (final r) ≠ users_table globals w.
Proof.
  cbn zeta. split; [| split; [| split]].
  - reflexivity.
  - vm_compute. reflexivity.
  - vm_compute. reflexivity.
  - intros H. vm_compute in H. discriminate H.
Qed.

(** * Further properties of the views and of start-up *)

(** ** /login *)

Section LoginFurther.

Import Sqlite.

Variable E : environment.
Variable g : module_globals.
Variable w : world.

Hypothesis sqlite : agrees_sqlite E.




(** The statement of /login, when nothing is named users in the database
    file, is rejected. *)
Lemma credential_lookup_no_table req :
  users_object g w = None →
  plain (format_value (multidict_get (form req) "username")) →
  plain (format_value (multidict_get (form req) "password")) →
  ∃ e, credential_lookup E g req w
       = (Err e, current_database (DB_FILE g) (open_database (DB_FILE g) w)).
Proof.
  intros Hfree [Hu Hu0] [Hp Hp0]. unfold credential_lookup.
  set (db := current_database (DB_FILE g) (open_database (DB_FILE g) w)).
  assert (db !! "users" = None) as Hdb.
  { unfold db. by rewrite current_open_database, users_object_open. }
  set (u := format_value (multidict_get (form req) "username")) in *.
  set (p := format_value (multidict_get (form req) "password")) in *.
  change (login_query (multidict_get (form req) "username")
                      (multidict_get (form req) "password"))
    with (login_query (Some u) (Some p)).
  pose proof (sqlite (login_query (Some u) (Some p)) db) as Hexec.
  unfold sqlite_fragment in Hexec.
  rewrite has_nul_login_query, lex_login_plain in Hexec by done.
  cbn in Hexec. rewrite Hdb in Hexec. exact Hexec.
Qed.

End LoginFurther.

(** With plain text in both fields /login is an exact, case-sensitive
    credential check: 200 when some stored row carries this username and
    this password, 401 when none does (an absent field counts as the text
    None). *)
Theorem login_plain_credentials E g w rs req :
  agrees_sqlite E →
  users_table g w = Some (Sqlite.users_of rs) →
  let u := format_value (multidict_get (form req) "username") in
  let p := format_value (multidict_get (form req) "password") in
  plain u →
  plain p →
  (outcome (serve E g RLogin req w)
     = Returns (Response 200 (Json [("message", "Login successful")]))
   ↔ ∃ r, In r rs ∧ Sqlite.username r = u ∧ Sqlite.password r = p) ∧
  (outcome (serve E g RLogin req w)
     = Returns (Response 401 (Json [("message", "Invalid credentials")]))
   ↔ ¬ ∃ r, In r rs ∧ Sqlite.username r = u ∧ Sqlite.password r = p).
Proof.
  intros sqlite stored u p Hu Hp. rewrite serve_login. cbn [outcome].
  rewrite (credential_lookup_plain E g w rs sqlite stored req Hu Hp).
  rewrite truthy_fetchone_select. fold u p.
  destruct (existsb _ rs) eqn:Hex.
  - apply existsb_exists in Hex as (r & Hin & [Hru Hrp]%andb_true_iff).
    apply String.eqb_eq in Hru, Hrp.
    split; split; [eauto | done | done | intros []; eauto].
  - assert (¬ ∃ r, In r rs ∧ Sqlite.username r = u ∧ Sqlite.password r = p) as Hno.
    { intros (r & Hin & Hru & Hrp).
      assert (existsb (λ r, String.eqb (Sqlite.username r) u
                            && String.eqb (Sqlite.password r) p) rs = true) as Hyes.
      { apply existsb_exists. exists r. split; [done |].
        apply andb_true_iff. split; by apply String.eqb_eq. }
      congruence. }
    split; split; [done | by intros ?%Hno | done | done].
Qed.

Lemma login_plain_credentials_witness :
  outcome (serve fragment_env globals RLogin (login_request "alice" "pw")
             (world_with [Sqlite.UserRow 1 "bob" "x"; Sqlite.UserRow 2 "alice" "pw"]))
    = Returns (Response 200 (Json [("message", "Login successful")])).
Proof.
  apply (proj1 (login_plain_credentials fragment_env globals
                  (world_with [Sqlite.UserRow 1 "bob" "x"; Sqlite.UserRow 2 "alice" "pw"])
                  [Sqlite.UserRow 1 "bob" "x"; Sqlite.UserRow 2 "alice" "pw"]
                  (login_request "alice" "pw")
                  fragment_env_agrees eq_refl (conj eq_refl eq_refl) (conj eq_refl eq_refl))).
  exists (Sqlite.UserRow 2 "alice" "pw"). cbn. auto.
Defined.



(** /login writes the statement, and so the password as it was sent, to
    the debug stream, and does so before the statement is executed and
    whether or not it is then rejected: these two are all the view sends
    out. *)
Theorem login_debug_stream E g req w u p :
  multidict_get (form req) "username" = Some u →
  multidict_get (form req) "password" = Some p →
  effects (serve E g RLogin req w) =
    [ Printed ("[DEBUG] Executing query: SELECT * FROM users WHERE username='"
                 +:+ u +:+ "' AND password='" +:+ p +:+ "'");
      Executed (DB_FILE g)
        ("SELECT * FROM users WHERE username='" +:+ u +:+ "' AND password='" +:+ p +:+ "'") ].
Proof.
  intros Hu Hp. rewrite serve_login, Hu, Hp. reflexivity.
Qed.

Lemma login_debug_stream_witness :
  effects (serve fragment_env globals RLogin (login_request "alice" "'") fresh_world) =
    [ Printed "[DEBUG] Executing query: SELECT * FROM users WHERE username='alice' AND password='''";
      Executed "users.db" "SELECT * FROM users WHERE username='alice' AND password='''" ].
Proof.
  exact (login_debug_stream fragment_env globals (login_request "alice" "'") fresh_world
           "alice" "'" eq_refl eq_refl).
Defined.

Lemma store_current_database f w :
  store_database f (current_database f (open_database f w)) (open_database f w)
    = open_database f w.
Proof.
  rewrite store_open_database, current_open_database. unfold open_database.
  destruct w as [files texts]. cbn.
  destruct (files !! f) as [db |] eqn:Hf; cbn; [| done].
  by rewrite insert_id.
Qed.

(** When nothing is named users in the database file (the schema was never
    initialised, or the file is missing), /login with plain fields answers
    neither 200 nor 401: the statement is rejected and the exception leaves
    the view; all that changes on disk is that a missing database file now
    exists, empty. *)
Theorem login_without_schema E g w req :
  agrees_sqlite E →
  users_object g w = None →
  plain (format_value (multidict_get (form req) "username")) →
  plain (format_value (multidict_get (form req) "password")) →
  (∃ e, outcome (serve E g RLogin req w) = Raises (AnException e)) ∧
  final (serve E g RLogin req w) = open_database (DB_FILE g) w.
Proof.
  intros sqlite Hfree Hu Hp. rewrite serve_login. cbn [outcome final].
  destruct (credential_lookup_no_table E g w sqlite req Hfree Hu Hp) as [e ->].
  cbn [fst snd]. split; [eauto |]. apply store_current_database.
Qed.

Lemma login_without_schema_witness :
  final (serve fragment_env globals RLogin (login_request "alice" "pw") fresh_world)
    = World {[ "users.db" := ∅ ]} ∅.
Proof.
  exact (proj2 (login_without_schema fragment_env globals fresh_world
                  (login_request "alice" "pw") fragment_env_agrees eq_refl
                  (conj eq_refl eq_refl) (conj eq_refl eq_refl))).
Defined.

(** Whatever is posted, /login changes no file: when executing a SELECT
    only reads, the world after the request is the world before it, but for
    the database file, created empty when it was missing. *)
Theorem login_leaves_files E g req w :
  select_reads_only E →
  final (serve E g RLogin req w) = open_database (DB_FILE g) w ∧
  (is_Some (sqlite_files w !! DB_FILE g) → final (serve E g RLogin req w) = w).
Proof.
  intros Hsel. rewrite serve_login. cbn [final]. unfold credential_lookup.
  rewrite login_query_select, Hsel, store_current_database.
  split; [done |]. intros [db Hdb]. unfold open_database. by rewrite Hdb.
Qed.

Lemma login_leaves_files_witness :
  final (serve fragment_env globals RLogin (login_request "x' OR '1'='1" "y")
           (world_with [Sqlite.UserRow 1 "alice" "pw"]))
    = world_with [Sqlite.UserRow 1 "alice" "pw"].
Proof.
  exact (proj2 (login_leaves_files fragment_env globals
                  (login_request "x' OR '1'='1" "y")
                  (world_with [Sqlite.UserRow 1 "alice" "pw"])
                  fragment_env_select_reads_only)
               (ex_intro _ _ eq_refl)).
Defined.

(** ** Start-up *)

(** [init_db] touches the users name of its database file and nothing
    else: it sends the one CREATE TABLE statement, and leaves the text
    files, the other database files and every other table, view and index
    of its own file as they were. *)
Theorem init_db_frame E g w :
  agrees_sqlite E →
  users_object g w ≠ Some AnIndex →
  let after := run E g (init_db g) w in
  effects after = [Executed (DB_FILE g) create_users_sql] ∧
  text_files (final after) = text_files w ∧
  (∀ file, file ≠ DB_FILE g →
     sqlite_files (final after) !! file = sqlite_files w !! file) ∧
  (∀ name, name ≠ "users" →
     current_database (DB_FILE g) (final after) !! name
       = current_database (DB_FILE g) w !! name).
Proof.
  intros sqlite Hfree. cbn zeta. rewrite run_init_db by done. cbn [effects final].
  split; [done |]. split; [done |]. split.
  - intros file Hne. unfold initialised. cbn. by rewrite lookup_insert_ne.
  - intros name Hne. unfold initialised, current_database. cbn.
    rewrite lookup_insert_eq. cbn.
    destruct (default ∅ (sqlite_files w !! DB_FILE g) !! "users"); [done |].
    by rewrite lookup_insert_ne.
Qed.

Lemma init_db_frame_witness :
  current_database "users.db"
    (final (run fragment_env globals (init_db globals) notes_world)) !! "notes"
  = current_database "users.db" notes_world !! "notes".
Proof.
  refine (proj2 (proj2 (proj2
    (init_db_frame fragment_env globals notes_world fragment_env_agrees _)))
    "notes" _); vm_compute; discriminate.
Defined.

(** When an index of the database file is named users, [init_db] raises
    (IF NOT EXISTS does not cover indexes) and leaves the world as it
    was; the start-up stops there, and no request is served. *)
Theorem init_db_index_error E g w :
  agrees_sqlite E →
  users_object g w = Some AnIndex →
  (∃ e, outcome (run E g (init_db g) w) = Raises (AnException e)) ∧
  final (run E g (init_db g) w) = w ∧
  ∀ reqs, main E g reqs w = w.
Proof.
  intros sqlite Hindex.
  cut ((∃ e, outcome (run E g (init_db g) w) = Raises (AnException e)) ∧
       final (run E g (init_db g) w) = w).
  { intros [[e He] Hw]. split; [eauto |]. split; [done |].
    intros reqs. unfold main. by rewrite He. }
  cbn.
  pose proof (sqlite create_users_sql
                (current_database (DB_FILE g) (open_database (DB_FILE g) w))) as Hq.
  rewrite fragment_create_users in Hq. unfold Sqlite.create_if_not_exists in Hq.
  assert (current_database (DB_FILE g) (open_database (DB_FILE g) w) !! "users"
          = Some AnIndex) as Hdb.
  { by rewrite current_open_database, users_object_open. }
  rewrite Hdb in Hq. destruct Hq as [e Hq]. rewrite Hq. cbn. split; [eauto |].
  rewrite store_current_database.
  unfold open_database. unfold users_object in Hindex.
  by destruct (sqlite_files w !! DB_FILE g).
Qed.

Lemma init_db_index_error_witness :
  final (run fragment_env globals (init_db globals) indexed_world) = indexed_world.
Proof.
  exact (proj1 (proj2 (init_db_index_error fragment_env globals indexed_world
                         fragment_env_agrees eq_refl))).
Defined.

(** ** Requests one after another *)

Lemma no_payload_keeps_users_table E g r req w :
  select_reads_only E →
  runs_no_payload r = true →
  users_table g (final (serve E g r req w)) = users_table g w.
Proof.
  intros Hsel Hr. destruct r; try discriminate Hr.
  - reflexivity.
  - rewrite serve_login. cbn [final]. unfold credential_lookup.
    rewrite login_query_select, Hsel. apply users_table_store_current.
  - rewrite serve_read_file. reflexivity.
Qed.

Lemma serve_all_no_payload E g reqs w :
  select_reads_only E →
  Forall (λ x, runs_no_payload x.1 = true) reqs →
  users_table g (serve_all E g reqs w) = users_table g w.
Proof.
  intros Hsel Hreqs. revert w. unfold serve_all.
  induction Hreqs as [| [r req] reqs Hr _ IH]; intros w; cbn; [done |].
  rewrite IH. by apply no_payload_keeps_users_table.
Qed.

(** However many requests come in on /, /login and /readfile, in any
    order and with any input, the users table stays what it was: its rows
    are never created, changed or deleted by these views. *)
Theorem serve_all_keeps_users_table E g reqs w :
  select_reads_only E →
  Forall (λ x, runs_no_payload x.1 = true) reqs →
  users_table g (serve_all E g reqs w) = users_table g w.
Proof.
  intros Hsel Hreqs. by apply serve_all_no_payload.
Qed.

Lemma serve_all_keeps_users_table_witness :
  users_table globals
    (serve_all fragment_env globals
       [(RLogin, login_request "x' OR '1'='1" "y"); (RHome, body_request EmptyString);
        (RReadFile, Request [("file", "users.db")] [] EmptyString)]
       (world_with [Sqlite.UserRow 1 "alice" "pw"]))
  = Some (Sqlite.users_of [Sqlite.UserRow 1 "alice" "pw"]).
Proof.
  refine (serve_all_keeps_users_table fragment_env globals
            [(RLogin, login_request "x' OR '1'='1" "y"); (RHome, body_request EmptyString);
             (RReadFile, Request [("file", "users.db")] [] EmptyString)]
            (world_with [Sqlite.UserRow 1 "alice" "pw"])
            fragment_env_select_reads_only _).
  repeat constructor.
Defined.

(** A process started where nothing is named users creates the table
    empty, and no request on /, /login or /readfile adds a row: after any
    such traffic, /login with plain fields is still answered 401, whatever
    the username and password. *)
Theorem fresh_deployment_rejects E g reqs w req :
  agrees_sqlite E →
  select_reads_only E →
  users_object g w = None →
  Forall (λ x, runs_no_payload x.1 = true) reqs →
  plain (format_value (multidict_get (form req) "username")) →
  plain (format_value (multidict_get (form req) "password")) →
  users_table g (main E g reqs w) = Some (Table Sqlite.users_columns []) ∧
  outcome (serve E g RLogin req (main E g reqs w))
    = Returns (Response 401 (Json [("message", "Invalid credentials")])).
Proof.
  intros sqlite Hsel Hfree Hreqs Hu Hp.
  assert (users_table g (main E g reqs w) = Some (Sqlite.users_of [])) as Hempty.
  { unfold main. rewrite run_init_db by (done || congruence). cbn [outcome final].
    rewrite serve_all_no_payload by done.
    unfold users_table. by rewrite users_object_initialised, Hfree. }
  split; [exact Hempty |].
  rewrite serve_login. cbn [outcome].
  by rewrite (credential_lookup_plain E g _ [] sqlite Hempty req Hu Hp).
Qed.

Lemma fresh_deployment_rejects_witness :
  outcome (serve fragment_env globals RLogin (login_request "admin" "admin")
             (main fragment_env globals
                [(RLogin, login_request "admin" "12345"); (RHome, body_request EmptyString)]
                fresh_world))
    = Returns (Response 401 (Json [("message", "Invalid credentials")])).
Proof.
  refine (proj2 (fresh_deployment_rejects fragment_env globals
                   [(RLogin, login_request "admin" "12345"); (RHome, body_request EmptyString)]
                   fresh_world (login_request "admin" "admin")
                   fragment_env_agrees fragment_env_select_reads_only eq_refl _
                   (conj eq_refl eq_refl) (conj eq_refl eq_refl))).
  repeat constructor.
Defined.

(** ** All views *)

(** The status codes the views answer with: 200 only on /, /ping and
    /readfile; 200 or 401 on /login; 200 or 400 on /deserialize.  No view
    answers with another code. *)
Theorem view_statuses E g r req w resp :
  outcome (serve E g r req w) = Returns resp →
  match r with
  | RHome | RPing | RReadFile => status resp = 200
  | RLogin => status resp = 200 ∨ status resp = 401
  | RDeserialize => status resp = 200 ∨ status resp = 400
  end.
Proof.
  destruct r.
  - rewrite serve_home. by intros [= <-].
  - rewrite serve_login. cbn [outcome].
    destruct (fst (credential_lookup E g req w)) as [result_rows | e]; [| done].
    destruct (truthy (fetchone result_rows)); intros [= <-]; auto.
  - rewrite serve_ping. cbn [outcome].
    destruct (fst (env_popen E _ w)); [| done]. by intros [= <-].
  - rewrite serve_deserialize.
    destruct (env_b64decode E (data req)) as [raw | e]; cbn [outcome];
      [| intros [= <-]; auto].
    destruct (fst (env_pickle_loads E g raw w)) as [obj | [e | cls msg]];
      [| intros [= <-]; auto | done].
    destruct (py_str obj) as [text | [e | cls msg]]; [| | done]; intros [= <-]; auto.
  - rewrite serve_read_file. cbn [outcome].
    destruct (env_open_read E _ w); by intros [= <-].
Qed.

Lemma view_statuses_witness :
  status (Response 400 (Json [("error", "Ran out of input")])) = 200
  ∨ status (Response 400 (Json [("error", "Ran out of input")])) = 400.
Proof.
  exact (view_statuses fragment_env globals RDeserialize (body_request EmptyString)
           fresh_world (Response 400 (Json [("error", "Ran out of input")])) eq_refl).
Defined.

(** Each view keeps to its own library: only /login sends a statement to
    the database, only /ping hands a command to the shell, and / and
    /deserialize do neither (what an unpickled payload does is not the
    view's own call). *)
Theorem view_calls E g r req w :
  executed (effects (serve E g r req w)) =
    match r with
    | RLogin => [login_query (multidict_get (form req) "username")
                             (multidict_get (form req) "password")]
    | _ => []
    end ∧
  shell_commands (effects (serve E g r req w)) =
    match r with
    | RPing => [ping_command (default "127.0.0.1" (multidict_get (args req) "host"))]
    | _ => []
    end.
Proof.
  destruct r.
  - by rewrite serve_home.
  - by rewrite serve_login.
  - by rewrite serve_ping.
  - rewrite serve_deserialize. by destruct (env_b64decode E (data req)).
  - by rewrite serve_read_file.
Qed.

(** /readfile opens the path it was given exactly as it came, without
    normalising it or confining it to a directory (and /etc/passwd when
    there is no file parameter), makes no other call, and changes
    nothing. *)
Theorem read_file_opens_given_path E g req w :
  let filename := match multidict_get (args req) "file" with
                  | Some f => f
                  | None => "/etc/passwd"
                  end in
  effects (serve E g RReadFile req w) = [Opened filename] ∧
  final (serve E g RReadFile req w) = w.
Proof.
  cbn zeta. rewrite serve_read_file. by destruct (multidict_get (args req) "file").
Qed.
